(** * react-pixi-poc: the host adapter and the root session manager

    A shallow embedding of the two modules of the renderer:

    - [Reconciler] embeds the module that [react-pixi/index.js] imports as
      [./reconciler] (lines 17-586 of [src/index.js]): the logging decorator
      [logFunctionCall], the host-adapter callbacks handed to the
      reconciliation engine, and the [hostConfig] object literal.
    - [ReactPixi] embeds [src/react-pixi/index.js]: the [render] entry point
      that caches one root handle per container.

    JavaScript values are first-order data ([Js.value]); scene-graph objects
    live in a heap indexed by reference; every callback is a computation in
    a state-and-exception monad over that heap and the console. *)

From Stdlib Require Import ZArith String List.
From stdpp Require Import gmap strings list fin_maps.

Local Open Scope Z_scope.
Local Open Scope string_scope.

(** ** JavaScript values *)

Module Js.

(** Object identity: a reference into the heap. *)
Definition loc := nat.

(** The values the adapter passes around.  The adapter performs no
    arithmetic: numbers are carried from the property mapping to the
    drawing call unchanged, so an integer payload is enough. *)
Inductive value : Type :=
| VUndefined
| VNull
| VBool (b : bool)
| VNum (n : Z)
| VStr (s : string)
| VRef (l : loc).

#[global] Instance value_eq_dec : EqDecision value.
Proof. solve_decision. Defined.

(** ToBoolean, as used by [if (v)] and [!v]. *)
Definition truthy (v : value) : bool :=
  match v with
  | VUndefined | VNull => false
  | VBool b => b
  | VNum n => negb (Z.eqb n 0)
  | VStr s => negb (String.eqb s "")
  | VRef _ => true
  end.

(** A thrown [Error] object, identified by its message. *)
Inductive exn : Type :=
| Error (message : string).

(** How a call ends: with a value, or by throwing. *)
Inductive completion (A : Type) : Type :=
| Normal (a : A)
| Throw (e : exn).
Arguments Normal {A} a.
Arguments Throw {A} e.

(** A property mapping ([props]): own properties by name.  Reading a
    missing property yields [undefined]. *)
Abbreviation props := (gmap string value).

Definition get (o : props) (k : string) : value :=
  default VUndefined (o !! k).

(** A destructuring default, [const { k = d } = o]: the default is taken
    when the property reads as [undefined]. *)
Definition get_or (o : props) (k : string) (d : value) : value :=
  match get o k with
  | VUndefined => d
  | v => v
  end.

(** Computations over a mutable state [S]: state passing with
    exceptions.  A [throw] ends the computation with the state reached. *)
Definition ST (S A : Type) : Type := S → completion A * S.

Definition ret {S A} (a : A) : ST S A := fun σ => (Normal a, σ).

Definition throw {S A} (e : exn) : ST S A := fun σ => (Throw e, σ).

Definition bind {S A B} (m : ST S A) (k : A → ST S B) : ST S B :=
  fun σ =>
    match m σ with
    | (Normal a, σ') => k a σ'
    | (Throw e, σ') => (Throw e, σ')
    end.

#[global] Instance ST_ret {S} : MRet (ST S) := @ret S.
#[global] Instance ST_bind {S} : MBind (ST S) := fun A B k m => bind m k.

End Js.
Import Js.

(** ** The scene graph (PIXI) *)

Module Pixi.

(** The geometry calls a [Graphics] object has received, in order. *)
Inductive draw_cmd : Type :=
| BeginFill (color : Z)
| DrawRect (x y width height : value)
| EndFill.

(** A display object: its drawing, its ordered child list, its parent. *)
Record node : Type := Node {
  commands : list draw_cmd;
  children : list loc;
  parent : option loc
}.

Abbreviation heap := (gmap loc node).

(** A display object as its constructor leaves it. *)
Definition blank : node :=
  {| commands := []; children := []; parent := None |}.

Definition draw (c : draw_cmd) (n : node) : node :=
  {| commands := commands n ++ [c]; children := children n; parent := parent n |}.

Definition set_children (cs : list loc) (n : node) : node :=
  {| commands := commands n; children := cs; parent := parent n |}.

Definition set_parent (p : option loc) (n : node) : node :=
  {| commands := commands n; children := children n; parent := p |}.

(** [Container.removeChild] on the child list: the first occurrence goes. *)
Fixpoint remove_first (c : loc) (cs : list loc) : list loc :=
  match cs with
  | [] => []
  | d :: ds => if decide (d = c) then ds else d :: remove_first c ds
  end.

(** [parent.addChild(child)] of the scene-graph library: the child leaves
    its current parent, if it has one, and is pushed at the end of the new
    parent's child list. *)
Definition addChild (p c : loc) (h : heap) : heap :=
  let h1 :=
    match h !! c ≫= parent with
    | Some q => alter (fun n => set_children (remove_first c (children n)) n) q h
    | None => h
    end in
  let h2 := alter (set_parent (Some p)) c h1 in
  alter (fun n => set_children (children n ++ [c]) n) p h2.

(** The child list of a display object ([[]] for a dangling reference). *)
Definition children_of (h : heap) (p : loc) : list loc :=
  from_option children [] (h !! p).

End Pixi.
Import Pixi.

(** ** src/react-pixi/reconciler.js *)

Module Reconciler.

(** One line on the console.  [LogFn] is what [logFunctionCall] prints:
    the callee's name, the argument list and the result.  [LogInfo] is a
    [console.info] line with its trailing values. *)
Inductive log_entry : Type :=
| LogFn (name : string) {A R : Type} (args : A) (result : R)
| LogInfo (message : string) (extra : list value).

(** The mutable world a callback can see. *)
Record store : Type := Store {
  heap_of : heap;
  console : list log_entry
}.

(** Callbacks run over the store. *)
Abbreviation M := (ST store).

(** [console.log(`[fn] ${name}`, args, `=>`, result)]. *)
Definition console_log {A R} (name : string) (args : A) (result : R) : M unit :=
  fun σ =>
    (Normal tt,
     {| heap_of := heap_of σ; console := console σ ++ [LogFn name args result] |}).

(** Heap primitives. *)
Definition alloc (n : node) : M loc :=
  fun σ =>
    let l := fresh (dom (heap_of σ)) in
    (Normal l, {| heap_of := <[l := n]> (heap_of σ); console := console σ |}).

Definition update_heap (f : heap → heap) : M unit :=
  fun σ => (Normal tt, {| heap_of := f (heap_of σ); console := console σ |}).

(** [new PIXI.Graphics()] and the three drawing calls. *)
Definition new_Graphics : M loc := alloc blank.

Definition beginFill (g : loc) (color : Z) : M unit :=
  update_heap (alter (draw (BeginFill color)) g).

Definition drawRect (g : loc) (x y width height : value) : M unit :=
  update_heap (alter (draw (DrawRect x y width height)) g).

Definition endFill (g : loc) : M unit :=
  update_heap (alter (draw EndFill) g).

(** A named function: what [cb.name] and [cb(...args)] need. *)
Record fn (A R : Type) : Type := Fn {
  fn_name : string;
  fn_call : A → M R
}.
Arguments Fn {A R} fn_name fn_call.
Arguments fn_name {A R} f.
Arguments fn_call {A R} f args.

(** [logFunctionCall] (lines 22-29): call, log, hand the result back.  A
    callee that throws skips the log line and the exception goes through.
    The wrapper is an anonymous arrow function. *)
Definition logFunctionCall {A R} (cb : fn A R) : fn A R :=
  Fn "" (fun args =>
    result ← fn_call cb args;
    console_log (fn_name cb) args result;;
    mret result).

Section HostConfig.

(** [TYPE_RECTANGLE] is imported from [./types]; element kinds of host
    components are strings. *)
Variable TYPE_RECTANGLE : string.

(** Lines 42-63.  The engine always passes an object as [props]. *)
Definition createInstance
    (type : string) (props : props)
    (pixiContainer : loc) (hostContext internalHandle : value) : M loc :=
  if decide (type = TYPE_RECTANGLE) then
    let x := get_or props "x" (VNum 0) in
    let y := get_or props "y" (VNum 0) in
    let width := get_or props "width" (VNum 100) in
    let height := get_or props "height" (VNum 100) in
    graphics ← new_Graphics;
    beginFill graphics 0xffffff;;
    drawRect graphics x y width height;;
    endFill graphics;;
    mret graphics
  else
    throw (Error ("Unknown element type: " +:+ type)).

(** A function whose body is empty returns [undefined] and touches
    nothing. *)
Definition empty_body : M value := mret VUndefined.

Definition createTextInstance
    (text : value) (rootContainer : loc) (hostContext internalHandle : value)
    : M value :=
  empty_body.

(** Line 78. *)
Definition appendInitialChild (parentInstance child : loc) : M value :=
  empty_body.

(** Lines 90-98. *)
Definition finalizeInitialChildren
    (instance : loc) (type : string) (props : props)
    (rootContainer : loc) (hostContext : value) : M value :=
  mret (VBool false).

(** Lines 108-115. *)
Definition prepareUpdate
    (instance : loc) (type : string) (oldProps newProps : props)
    (rootContainer : loc) (hostContext : value) : M value :=
  empty_body.

Definition shouldSetTextContent (type : string) (props : props) : M value :=
  mret (VBool false).

Definition getRootHostContext (rootContainer : loc) : M value :=
  mret VNull.

Definition getChildHostContext
    (parentHostContext : value) (type : string) (rootContainer : loc)
    : M value :=
  mret parentHostContext.

(** Line 161. *)
Definition getPublicInstance (instance : loc) : M value :=
  empty_body.

Definition prepareForCommit (containerInfo : loc) : M value :=
  empty_body.

Definition resetAfterCommit (containerInfo : loc) : M value :=
  empty_body.

Definition getCurrentEventPriority : M value :=
  empty_body.

Definition detachDeletedInstance (node : loc) : M value :=
  empty_body.

(** Lines 267-275.  [parentInstance.addChild(child)]; the function itself
    returns nothing. *)
Definition appendChild (parentInstance child : loc) : M value :=
  update_heap (addChild parentInstance child);;
  mret VUndefined.

Definition appendChildToContainer (container child : loc) : M value :=
  appendChild container child;;
  mret VUndefined.

(** Lines 281-295. *)
Definition insertBefore (parentInstance child beforeChild : loc) : M value :=
  empty_body.

Definition insertInContainerBefore
    (container child beforeChild : loc) : M value :=
  empty_body.

Definition removeChild (parentInstance child : loc) : M value :=
  empty_body.

Definition removeChildFromContainer (container child : loc) : M value :=
  empty_body.

Definition commitMount
    (instance : loc) (type : string) (props : props)
    (internalInstanceHandle : value) : M value :=
  empty_body.

Definition commitUpdate
    (instance : loc) (updatePayload : value) (type : string)
    (prevProps nextProps : props) (internalHandle : value) : M value :=
  empty_body.

Definition hideInstance (instance : loc) : M value :=
  empty_body.

Definition unhideInstance (instance : loc) (props : props) : M value :=
  empty_body.

(** Line 357. *)
Definition clearContainer (container : loc) : M value :=
  empty_body.

End HostConfig.

(** The object literal handed to the reconciliation engine: every callback
    goes through [logFunctionCall].  The fields keep the names of the
    callbacks; an argument list is a tuple.  The persistence and hydration
    entries of the literal are further empty-bodied functions wrapped the
    same way. *)
Module Config.
Record t : Type := Make {
  supportsMutation : bool;
  createInstance : fn (string * props * loc * value * value) loc;
  createTextInstance : fn (value * loc * value * value) value;
  appendInitialChild : fn (loc * loc) value;
  finalizeInitialChildren : fn (loc * string * props * loc * value) value;
  prepareUpdate : fn (loc * string * props * props * loc * value) value;
  shouldSetTextContent : fn (string * props) value;
  getRootHostContext : fn loc value;
  getChildHostContext : fn (value * string * loc) value;
  getPublicInstance : fn loc value;
  prepareForCommit : fn loc value;
  resetAfterCommit : fn loc value;
  getCurrentEventPriority : fn unit value;
  detachDeletedInstance : fn loc value;
  appendChild : fn (loc * loc) value;
  appendChildToContainer : fn (loc * loc) value;
  insertBefore : fn (loc * loc * loc) value;
  insertInContainerBefore : fn (loc * loc * loc) value;
  removeChild : fn (loc * loc) value;
  removeChildFromContainer : fn (loc * loc) value;
  commitMount : fn (loc * string * props * value) value;
  commitUpdate : fn (loc * value * string * props * props * value) value;
  hideInstance : fn loc value;
  unhideInstance : fn (loc * props) value;
  clearContainer : fn loc value
}.
End Config.

(** The callbacks before wrapping, as named functions. *)
Definition plain (TYPE_RECTANGLE : string) : Config.t := {|
  Config.supportsMutation := true;
  Config.createInstance :=
    Fn "createInstance"
      (fun '(type, props, c, ctx, ih) => createInstance TYPE_RECTANGLE type props c ctx ih);
  Config.createTextInstance :=
    Fn "createTextInstance"
      (fun '(text, c, ctx, ih) => createTextInstance text c ctx ih);
  Config.appendInitialChild :=
    Fn "appendInitialChild" (fun '(p, c) => appendInitialChild p c);
  Config.finalizeInitialChildren :=
    Fn "finalizeInitialChildren"
      (fun '(i, type, props, c, ctx) => finalizeInitialChildren i type props c ctx);
  Config.prepareUpdate :=
    Fn "prepareUpdate"
      (fun '(i, type, old, new, c, ctx) => prepareUpdate i type old new c ctx);
  Config.shouldSetTextContent :=
    Fn "shouldSetTextContent" (fun '(type, props) => shouldSetTextContent type props);
  Config.getRootHostContext := Fn "getRootHostContext" getRootHostContext;
  Config.getChildHostContext :=
    Fn "getChildHostContext"
      (fun '(ctx, type, c) => getChildHostContext ctx type c);
  Config.getPublicInstance := Fn "getPublicInstance" getPublicInstance;
  Config.prepareForCommit := Fn "prepareForCommit" prepareForCommit;
  Config.resetAfterCommit := Fn "resetAfterCommit" resetAfterCommit;
  Config.getCurrentEventPriority :=
    Fn "getCurrentEventPriority" (fun _ => getCurrentEventPriority);
  Config.detachDeletedInstance := Fn "detachDeletedInstance" detachDeletedInstance;
  Config.appendChild := Fn "appendChild" (fun '(p, c) => appendChild p c);
  Config.appendChildToContainer :=
    Fn "appendChildToContainer" (fun '(p, c) => appendChildToContainer p c);
  Config.insertBefore :=
    Fn "insertBefore" (fun '(p, c, b) => insertBefore p c b);
  Config.insertInContainerBefore :=
    Fn "insertInContainerBefore" (fun '(p, c, b) => insertInContainerBefore p c b);
  Config.removeChild := Fn "removeChild" (fun '(p, c) => removeChild p c);
  Config.removeChildFromContainer :=
    Fn "removeChildFromContainer" (fun '(p, c) => removeChildFromContainer p c);
  Config.commitMount :=
    Fn "commitMount" (fun '(i, type, props, ih) => commitMount i type props ih);
  Config.commitUpdate :=
    Fn "commitUpdate"
      (fun '(i, u, type, prev, next, ih) => commitUpdate i u type prev next ih);
  Config.hideInstance := Fn "hideInstance" hideInstance;
  Config.unhideInstance :=
    Fn "unhideInstance" (fun '(i, props) => unhideInstance i props);
  Config.clearContainer := Fn "clearContainer" clearContainer
|}.

(** Lines 484-583: [const hostConfig = { supportsMutation: true,
    createInstance: logFunctionCall(createInstance), ... }]. *)
Definition hostConfig (TYPE_RECTANGLE : string) : Config.t :=
  let f := plain TYPE_RECTANGLE in {|
  Config.supportsMutation := true;
  Config.createInstance := logFunctionCall (Config.createInstance f);
  Config.createTextInstance := logFunctionCall (Config.createTextInstance f);
  Config.appendInitialChild := logFunctionCall (Config.appendInitialChild f);
  Config.finalizeInitialChildren := logFunctionCall (Config.finalizeInitialChildren f);
  Config.prepareUpdate := logFunctionCall (Config.prepareUpdate f);
  Config.shouldSetTextContent := logFunctionCall (Config.shouldSetTextContent f);
  Config.getRootHostContext := logFunctionCall (Config.getRootHostContext f);
  Config.getChildHostContext := logFunctionCall (Config.getChildHostContext f);
  Config.getPublicInstance := logFunctionCall (Config.getPublicInstance f);
  Config.prepareForCommit := logFunctionCall (Config.prepareForCommit f);
  Config.resetAfterCommit := logFunctionCall (Config.resetAfterCommit f);
  Config.getCurrentEventPriority := logFunctionCall (Config.getCurrentEventPriority f);
  Config.detachDeletedInstance := logFunctionCall (Config.detachDeletedInstance f);
  Config.appendChild := logFunctionCall (Config.appendChild f);
  Config.appendChildToContainer := logFunctionCall (Config.appendChildToContainer f);
  Config.insertBefore := logFunctionCall (Config.insertBefore f);
  Config.insertInContainerBefore := logFunctionCall (Config.insertInContainerBefore f);
  Config.removeChild := logFunctionCall (Config.removeChild f);
  Config.removeChildFromContainer := logFunctionCall (Config.removeChildFromContainer f);
  Config.commitMount := logFunctionCall (Config.commitMount f);
  Config.commitUpdate := logFunctionCall (Config.commitUpdate f);
  Config.hideInstance := logFunctionCall (Config.hideInstance f);
  Config.unhideInstance := logFunctionCall (Config.unhideInstance f);
  Config.clearContainer := logFunctionCall (Config.clearContainer f)
|}.

End Reconciler.

(** ** src/react-pixi/index.js *)

Module ReactPixi.

Import Reconciler.

Section Render.

(** The reconciliation engine ([react-reconciler]) is external: its state
    is opaque, [createContainer] hands back a root handle, and
    [updateContainer] submits an element against a handle and may throw
    what a render pass throws. *)
Context {element engine : Type}.
Variable createContainer : loc → engine → value * engine.
Variable updateContainer :
  element → value → value → value → engine → completion value * engine.

(** What [render] reads and writes: the [_rootContainer] property of each
    container object, the engine, the console.  [_rootContainer] is a
    property of this module's own making: the engine steps on its own state
    and leaves the property alone. *)
Record world : Type := World {
  rootContainer_of : gmap loc value;
  reconciler : engine;
  console : list log_entry
}.

Abbreviation W := (ST world).

(** [pixiContainer._rootContainer] *)
Definition read_rootContainer (pixiContainer : loc) : W value :=
  fun w => (Normal (default VUndefined (rootContainer_of w !! pixiContainer)), w).

(** [pixiContainer._rootContainer = v] *)
Definition write_rootContainer (pixiContainer : loc) (v : value) : W unit :=
  fun w =>
    (Normal tt,
     {| rootContainer_of := <[pixiContainer := v]> (rootContainer_of w);
        reconciler := reconciler w;
        console := console w |}).

(** [console.info(message, ...extra)] *)
Definition console_info (message : string) (extra : list value) : W unit :=
  fun w =>
    (Normal tt,
     {| rootContainer_of := rootContainer_of w;
        reconciler := reconciler w;
        console := console w ++ [LogInfo message extra] |}).

(** [reconciler.createContainer(pixiContainer)] *)
Definition call_createContainer (pixiContainer : loc) : W value :=
  fun w =>
    let '(root, e) := createContainer pixiContainer (reconciler w) in
    (Normal root,
     {| rootContainer_of := rootContainer_of w;
        reconciler := e;
        console := console w |}).

(** [reconciler.updateContainer(element, root, parent, callback)] *)
Definition call_updateContainer
    (reactElement : element) (root parentComponent callback : value) : W value :=
  fun w =>
    let '(result, e) :=
      updateContainer reactElement root parentComponent callback (reconciler w) in
    (result,
     {| rootContainer_of := rootContainer_of w;
        reconciler := e;
        console := console w |}).

(** Lines 3-22 of [src/react-pixi/index.js]. *)
Definition render
    (reactElement : element) (pixiContainer : loc) (callback : value) : W value :=
  cached ← read_rootContainer pixiContainer;
  (if negb (truthy cached) then
     console_info "[ReactPixi] creating container..." [];;
     root ← call_createContainer pixiContainer;
     write_rootContainer pixiContainer root;;
     created ← read_rootContainer pixiContainer;
     console_info "[ReactPixi] created container:" [created]
   else mret tt);;
  console_info "[ReactPixi] updating container..." [];;
  root ← read_rootContainer pixiContainer;
  result ← call_updateContainer reactElement root VNull callback;
  console_info "[ReactPixi] updated container." [];;
  mret result.

(** A caller issuing one [render] after another; a call that throws leaves
    the world it reached. *)
Record request : Type := Request {
  req_element : element;
  req_container : loc;
  req_callback : value
}.

Definition render_all (reqs : list request) (w : world) : world :=
  foldl
    (fun w r => (render (req_element r) (req_container r) (req_callback r) w).2)
    w reqs.

(** The cached root handle of a container, [undefined] when none is set. *)
Definition cached_root (w : world) (pixiContainer : loc) : value :=
  default VUndefined (rootContainer_of w !! pixiContainer).

End Render.

End ReactPixi.

(** * Specification vocabulary *)

Module Spec.

Import Reconciler.

(** A computation that completes normally from every state. *)
Definition returns {S A} (m : ST S A) : Prop :=
  ∀ σ, ∃ a σ', m σ = (Normal a, σ').

Definition never_throws {A R} (f : fn A R) : Prop :=
  ∀ args, returns (fn_call f args).

(** The node a white rectangle drawing leaves behind: filled, not yet
    attached anywhere. *)
Definition rectangle (x y width height : value) : node :=
  {| commands := [BeginFill 0xffffff; DrawRect x y width height; EndFill];
     children := [];
     parent := None |}.

(** Property [k] of [props] is filled in as [v] with default [d]: an
    omitted property (absent, or present with the value [undefined]) takes
    the default, a provided one is used as given. *)
Definition filled (props : props) (k : string) (d v : value) : Prop :=
  (props !! k = None → v = d) ∧
  (props !! k = Some VUndefined → v = d) ∧
  (∀ u, props !! k = Some u → u ≠ VUndefined → v = u).

(** A full property mapping with the properties named in [omitted] left
    out. *)
Definition omit (omitted : gset string) (full : props) : props :=
  filter (fun kv => kv.1 ∉ omitted) full.

(** Every callback of a host config other than [createInstance] completes
    normally. *)
Definition others_never_throw (c : Config.t) : Prop :=
  never_throws (Config.createTextInstance c) ∧
  never_throws (Config.appendInitialChild c) ∧
  never_throws (Config.finalizeInitialChildren c) ∧
  never_throws (Config.prepareUpdate c) ∧
  never_throws (Config.shouldSetTextContent c) ∧
  never_throws (Config.getRootHostContext c) ∧
  never_throws (Config.getChildHostContext c) ∧
  never_throws (Config.getPublicInstance c) ∧
  never_throws (Config.prepareForCommit c) ∧
  never_throws (Config.resetAfterCommit c) ∧
  never_throws (Config.getCurrentEventPriority c) ∧
  never_throws (Config.detachDeletedInstance c) ∧
  never_throws (Config.appendChild c) ∧
  never_throws (Config.appendChildToContainer c) ∧
  never_throws (Config.insertBefore c) ∧
  never_throws (Config.insertInContainerBefore c) ∧
  never_throws (Config.removeChild c) ∧
  never_throws (Config.removeChildFromContainer c) ∧
  never_throws (Config.commitMount c) ∧
  never_throws (Config.commitUpdate c) ∧
  never_throws (Config.hideInstance c) ∧
  never_throws (Config.unhideInstance c) ∧
  never_throws (Config.clearContainer c).

(** The properties of [newProps] whose value differs from the one in
    [oldProps]: what an update payload is to capture. *)
Definition changed_props (oldProps newProps : props) : props :=
  filter (fun kv => oldProps !! kv.1 ≠ Some kv.2) newProps.

(** [c] sits immediately before [s] in a child list. *)
Definition immediately_before (c s : loc) (cs : list loc) : Prop :=
  ∃ pre post : list loc, cs = (pre ++ c :: s :: post)%list.

(** Number of occurrences of [c] in a child list. *)
Definition occurrences (c : loc) (cs : list loc) : nat :=
  length (filter (fun d => d = c) cs).

(** Two functions agree on every call: same completion, same heap.  The
    console, the observability sink, is left out of the comparison. *)
Definition fn_equiv {A R} (f g : fn A R) : Prop :=
  ∀ args σ,
    (fn_call f args σ).1 = (fn_call g args σ).1 ∧
    heap_of (fn_call f args σ).2 = heap_of (fn_call g args σ).2.

Definition config_equiv (c d : Config.t) : Prop :=
  Config.supportsMutation c = Config.supportsMutation d ∧
  fn_equiv (Config.createInstance c) (Config.createInstance d) ∧
  fn_equiv (Config.createTextInstance c) (Config.createTextInstance d) ∧
  fn_equiv (Config.appendInitialChild c) (Config.appendInitialChild d) ∧
  fn_equiv (Config.finalizeInitialChildren c) (Config.finalizeInitialChildren d) ∧
  fn_equiv (Config.prepareUpdate c) (Config.prepareUpdate d) ∧
  fn_equiv (Config.shouldSetTextContent c) (Config.shouldSetTextContent d) ∧
  fn_equiv (Config.getRootHostContext c) (Config.getRootHostContext d) ∧
  fn_equiv (Config.getChildHostContext c) (Config.getChildHostContext d) ∧
  fn_equiv (Config.getPublicInstance c) (Config.getPublicInstance d) ∧
  fn_equiv (Config.prepareForCommit c) (Config.prepareForCommit d) ∧
  fn_equiv (Config.resetAfterCommit c) (Config.resetAfterCommit d) ∧
  fn_equiv (Config.getCurrentEventPriority c) (Config.getCurrentEventPriority d) ∧
  fn_equiv (Config.detachDeletedInstance c) (Config.detachDeletedInstance d) ∧
  fn_equiv (Config.appendChild c) (Config.appendChild d) ∧
  fn_equiv (Config.appendChildToContainer c) (Config.appendChildToContainer d) ∧
  fn_equiv (Config.insertBefore c) (Config.insertBefore d) ∧
  fn_equiv (Config.insertInContainerBefore c) (Config.insertInContainerBefore d) ∧
  fn_equiv (Config.removeChild c) (Config.removeChild d) ∧
  fn_equiv (Config.removeChildFromContainer c) (Config.removeChildFromContainer d) ∧
  fn_equiv (Config.commitMount c) (Config.commitMount d) ∧
  fn_equiv (Config.commitUpdate c) (Config.commitUpdate d) ∧
  fn_equiv (Config.hideInstance c) (Config.hideInstance d) ∧
  fn_equiv (Config.unhideInstance c) (Config.unhideInstance d) ∧
  fn_equiv (Config.clearContainer c) (Config.clearContainer d).

(** The line [logFunctionCall] leaves on the console for a call: one entry
    after a normal completion, none when the callee threw. *)
Definition log_line {A R} (name : string) (args : A) (r : completion R)
    : list log_entry :=
  match r with
  | Normal v => [LogFn name args v]
  | Throw _ => []
  end.

(** The console lines [render] writes around an update submission: the
    closing line is skipped when the submission throws. *)
Definition update_lines (r : completion value) : list log_entry :=
  LogInfo "[ReactPixi] updating container..." [] ::
  match r with
  | Normal _ => [LogInfo "[ReactPixi] updated container." []]
  | Throw _ => []
  end.

(** Root creations announced on a console. *)
Definition is_creation (e : log_entry) : bool :=
  match e with
  | LogInfo m _ => String.eqb m "[ReactPixi] creating container..."
  | LogFn _ _ _ => false
  end.

Definition creations (log : list log_entry) : nat :=
  length (List.filter is_creation log).

(** A function that writes nothing on the console. *)
Definition console_silent {A R} (f : fn A R) : Prop :=
  ∀ args σ, console (fn_call f args σ).2 = console σ.

(** The host context the engine computes for a node: it starts from
    [getRootHostContext] at the root container and goes through
    [getChildHostContext] once per ancestor kind on the way down. *)
Fixpoint descend (ctx : value) (path : list string) (rootContainer : loc)
    : M value :=
  match path with
  | [] => mret ctx
  | type :: rest =>
      child ← getChildHostContext ctx type rootContainer;
      descend child rest rootContainer
  end.

Definition host_context_at (rootContainer : loc) (path : list string) : M value :=
  ctx ← getRootHostContext rootContainer;
  descend ctx path rootContainer.

(** Mounting one rectangle under a container: created in the render phase,
    attached in the commit phase. *)
Definition mount
    (TYPE_RECTANGLE : string) (props : props) (container : loc) : M loc :=
  g ← createInstance TYPE_RECTANGLE TYPE_RECTANGLE props container VNull VNull;
  appendChildToContainer container g;;
  mret g.

(** Update submissions announced on a console. *)
Definition is_submission (e : log_entry) : bool :=
  match e with
  | LogInfo m _ => String.eqb m "[ReactPixi] updating container..."
  | LogFn _ _ _ => false
  end.

Definition submissions (log : list log_entry) : nat :=
  length (List.filter is_submission log).

(** The containers among [cs] that hold no usable root handle in [w]. *)
Definition new_roots {engine} (w : ReactPixi.world (engine := engine))
    (cs : list loc) : gset loc :=
  list_to_set
    (filter (fun c => truthy (ReactPixi.cached_root w c) = false) cs).

(** The parent of a display object, [None] for a detached or dangling
    one. *)
Definition parent_of (h : heap) (x : loc) : option loc :=
  h !! x ≫= parent.

(** A consistent scene graph: a node is in the child list of exactly the
    node its parent pointer names, and no child list repeats a node. *)
Definition scene_ok (h : heap) : Prop :=
  (∀ x y, parent_of h y = Some x ↔ y ∈ children_of h x) ∧
  (∀ x, NoDup (children_of h x)).

End Spec.

(** * Concrete scenes *)

Module Scene.

Import Reconciler.

(** The kind constant used in the concrete runs. *)
Definition RECTANGLE : string := "RECTANGLE".

(** The empty store: no display object, nothing on the console. *)
Definition empty_store : store := {| heap_of := ∅; console := [] |}.

(** The root container (the application's stage), alone in the heap. *)
Definition stage : loc := 0%nat.

Definition stage_only : store :=
  {| heap_of := {[ stage := blank ]}; console := [] |}.

(** Two rectangles created and attached to the stage, in this order. *)
Definition S_node : loc := 1%nat.
Definition C_node : loc := 2%nat.

Definition mount_two : M (loc * loc) :=
  s ← createInstance RECTANGLE RECTANGLE ∅ stage VNull VNull;
  c ← createInstance RECTANGLE RECTANGLE ∅ stage VNull VNull;
  appendChildToContainer stage s;;
  appendChildToContainer stage c;;
  mret (s, c).

Definition two_children : store := (mount_two stage_only).2.

(** The property mappings of the update scenario. *)
Definition props_at (x : Z) : props :=
  {[ "x" := VNum x; "y" := VNum 0; "width" := VNum 50; "height" := VNum 50 ]}.

(** A toy reconciliation engine: its state counts the roots it has made,
    a root handle is an object reference, an update returns [null]. *)
Definition toy_createContainer (c : loc) (made : nat) : value * nat :=
  (VRef (100 + made)%nat, S made).

Definition toy_updateContainer
    (el : string * props) (root parentComponent callback : value) (made : nat)
    : completion value * nat :=
  (Normal VNull, made).

Definition fresh_world : ReactPixi.world (engine := nat) :=
  {| ReactPixi.rootContainer_of := ∅;
     ReactPixi.reconciler := 0%nat;
     ReactPixi.console := [] |}.

(** A toy engine whose render pass throws on an element of another kind
    than the rectangle, as [createInstance] would make it. *)
Definition strict_updateContainer
    (el : string * props) (root parentComponent callback : value) (made : nat)
    : completion value * nat :=
  if decide (el.1 = RECTANGLE)
  then (Normal VNull, made)
  else (Throw (Error ("Unknown element type: " +:+ el.1)), made).

(** A toy engine that hands back [null] for a root. *)
Definition null_createContainer (c : loc) (made : nat) : value * nat :=
  (VNull, S made).

(** The stage with one rectangle created and not yet attached. *)
Definition one_pending : store :=
  (createInstance RECTANGLE RECTANGLE (props_at 10) stage VNull VNull stage_only).2.

(** A second root container. *)
Definition backstage : loc := 7%nat.

End Scene.

Import Reconciler Spec Scene.

(** Unfold the monadic plumbing and the heap primitives of a callback. *)
Ltac run_callback :=
  cbv [mbind mret ST_bind ST_ret bind ret throw empty_body
       new_Graphics alloc beginFill drawRect endFill update_heap console_log
       logFunctionCall];
  cbn [heap_of console fst snd fn_call fn_name].

(** * Node creation *)

Section CreateInstance.

Variable TYPE_RECTANGLE : string.

Lemma createInstance_rectangle props c ctx ih σ :
  createInstance TYPE_RECTANGLE TYPE_RECTANGLE props c ctx ih σ =
  (Normal (fresh (dom (heap_of σ))),
   {| heap_of :=
        <[fresh (dom (heap_of σ)) :=
            rectangle (get_or props "x" (VNum 0)) (get_or props "y" (VNum 0))
                      (get_or props "width" (VNum 100))
                      (get_or props "height" (VNum 100))]> (heap_of σ);
      console := console σ |}).
Proof.
  unfold createInstance. rewrite decide_True by done.
  run_callback. by rewrite !alter_insert_eq.
Qed.

Lemma createInstance_unknown type props c ctx ih σ :
  type ≠ TYPE_RECTANGLE →
  createInstance TYPE_RECTANGLE type props c ctx ih σ =
  (Throw (Error ("Unknown element type: " +:+ type)), σ).
Proof. intros Hne. unfold createInstance. by rewrite decide_False. Qed.

Lemma get_or_filled (props : props) k d :
  d ≠ VUndefined → filled props k d (get_or props k d).
Proof.
  intros Hd. unfold filled, get_or, get.
  repeat split.
  - by intros ->.
  - by intros ->.
  - intros u -> Hu. by destruct u.
Qed.

Lemma logged_never_throws {A R} (f : fn A R) :
  never_throws f → never_throws (logFunctionCall f).
Proof.
  intros Hf args σ. destruct (Hf args σ) as (r & σ' & Hr).
  exists r. eexists. run_callback. rewrite Hr. reflexivity.
Qed.

Lemma others_never_throw_hostConfig : others_never_throw (hostConfig TYPE_RECTANGLE).
Proof.
  unfold others_never_throw, hostConfig; cbn [Config.createTextInstance
    Config.appendInitialChild Config.finalizeInitialChildren Config.prepareUpdate
    Config.shouldSetTextContent Config.getRootHostContext Config.getChildHostContext
    Config.getPublicInstance Config.prepareForCommit Config.resetAfterCommit
    Config.getCurrentEventPriority Config.detachDeletedInstance Config.appendChild
    Config.appendChildToContainer Config.insertBefore Config.insertInContainerBefore
    Config.removeChild Config.removeChildFromContainer Config.commitMount
    Config.commitUpdate Config.hideInstance Config.unhideInstance Config.clearContainer].
  repeat split; apply logged_never_throws; intros args σ;
    repeat match goal with p : (_ * _)%type |- _ => destruct p end;
    eexists; eexists; reflexivity.
Qed.

(** C1.  Node creation throws, with the store left as it was, for every
    element kind other than the rectangle kind; for the rectangle kind it
    returns a node that did not exist before.  Every other callback of the
    host config completes normally. *)
Theorem createInstance_throws_iff_unsupported type props c ctx ih σ :
  (type ≠ TYPE_RECTANGLE →
   createInstance TYPE_RECTANGLE type props c ctx ih σ =
   (Throw (Error ("Unknown element type: " +:+ type)), σ)) ∧
  (type = TYPE_RECTANGLE →
   ∃ g σ', createInstance TYPE_RECTANGLE type props c ctx ih σ = (Normal g, σ') ∧
           heap_of σ !! g = None ∧ is_Some (heap_of σ' !! g)) ∧
  others_never_throw (hostConfig TYPE_RECTANGLE).
Proof.
  split; [|split].
  - apply createInstance_unknown.
  - intros ->. eexists _, _. split; [apply createInstance_rectangle|].
    cbn. split.
    + apply not_elem_of_dom, is_fresh.
    + rewrite lookup_insert_eq. by eexists.
  - apply others_never_throw_hostConfig.
Qed.

(** C2.  For the rectangle kind, whatever subset of [x], [y], [width],
    [height] the property mapping omits, the new node is a rectangle drawn
    with [0], [0], [100], [100] in place of the omitted properties and with
    the provided properties as given. *)
Theorem createInstance_fills_defaults props c ctx ih σ :
  ∃ g x y width height σ',
    createInstance TYPE_RECTANGLE TYPE_RECTANGLE props c ctx ih σ = (Normal g, σ') ∧
    heap_of σ !! g = None ∧
    heap_of σ' !! g = Some (rectangle x y width height) ∧
    filled props "x" (VNum 0) x ∧
    filled props "y" (VNum 0) y ∧
    filled props "width" (VNum 100) width ∧
    filled props "height" (VNum 100) height.
Proof.
  eexists _, _, _, _, _, _. split; [apply createInstance_rectangle|].
  cbn. split; [apply not_elem_of_dom, is_fresh|].
  split; [apply lookup_insert_eq|].
  repeat split; by apply get_or_filled.
Qed.

Lemma get_or_omit (omitted : gset string) (full : props) k d v :
  full !! k = Some v → v ≠ VUndefined →
  get_or (omit omitted full) k d = if decide (k ∈ omitted) then d else v.
Proof.
  intros Hk Hv. unfold get_or, get, omit.
  destruct (decide (k ∈ omitted)) as [Hin|Hout].
  - rewrite (proj2 (map_lookup_filter_None _ _ _)); [done|].
    right. intros u _ Hu. by apply Hu.
  - rewrite (proj2 (map_lookup_filter_Some _ _ _ v)); [|done].
    by destruct v.
Qed.

(** The property-test form of the defaults: start from a mapping that
    gives all four properties and leave any subset out. *)
Lemma createInstance_omitted_subset (omitted : gset string) vx vy vw vh c ctx ih σ :
  vx ≠ VUndefined → vy ≠ VUndefined → vw ≠ VUndefined → vh ≠ VUndefined →
  let full : props :=
    {[ "x" := vx; "y" := vy; "width" := vw; "height" := vh ]} in
  let g := fresh (dom (heap_of σ)) in
  createInstance TYPE_RECTANGLE TYPE_RECTANGLE (omit omitted full) c ctx ih σ =
  (Normal g,
   {| heap_of :=
        <[g := rectangle (if decide ("x" ∈ omitted) then VNum 0 else vx)
                         (if decide ("y" ∈ omitted) then VNum 0 else vy)
                         (if decide ("width" ∈ omitted) then VNum 100 else vw)
                         (if decide ("height" ∈ omitted) then VNum 100 else vh)]>
          (heap_of σ);
      console := console σ |}).
Proof.
  intros Hx Hy Hw Hh full g. rewrite createInstance_rectangle.
  rewrite (get_or_omit _ full "x" _ vx), (get_or_omit _ full "y" _ vy),
    (get_or_omit _ full "width" _ vw), (get_or_omit _ full "height" _ vh);
    by rewrite ?lookup_insert_eq, ?lookup_insert_ne.
Qed.

End CreateInstance.

Lemma createInstance_throws_iff_unsupported_witness :
  ("CIRCLE" ≠ RECTANGLE ∧
   createInstance RECTANGLE "CIRCLE" ∅ stage VNull VNull stage_only =
   (Throw (Error "Unknown element type: CIRCLE"), stage_only)) ∧
  (∃ g σ', createInstance RECTANGLE RECTANGLE ∅ stage VNull VNull stage_only
           = (Normal g, σ') ∧
           heap_of stage_only !! g = None ∧ is_Some (heap_of σ' !! g)).
Proof.
  split.
  - split; [discriminate|].
    apply (proj1 (createInstance_throws_iff_unsupported
                    RECTANGLE "CIRCLE" ∅ stage VNull VNull stage_only)).
    discriminate.
  - apply (proj1 (proj2 (createInstance_throws_iff_unsupported
                           RECTANGLE RECTANGLE ∅ stage VNull VNull stage_only))).
    reflexivity.
Defined.

(** Only [x] and [width] given: [y] and [height] take their defaults. *)
Example createInstance_partial_props :
  let props : props := {[ "x" := VNum 5; "width" := VNum 20 ]} in
  let '(r, σ) := createInstance RECTANGLE RECTANGLE props stage VNull VNull stage_only in
  r = Normal 1%nat ∧
  heap_of σ !! 1%nat = Some (rectangle (VNum 5) (VNum 0) (VNum 20) (VNum 100)).
Proof. vm_compute. split; reflexivity. Qed.

(** A property set to [null] is provided: no default replaces it. *)
Example createInstance_null_prop :
  let props : props := {[ "x" := VNull ]} in
  let '(r, σ) := createInstance RECTANGLE RECTANGLE props stage VNull VNull stage_only in
  heap_of σ !! 1%nat = Some (rectangle VNull (VNum 0) (VNum 100) (VNum 100)).
Proof. vm_compute. reflexivity. Qed.

(** * The callbacks with constant or empty bodies *)

Section Callbacks.

Variable TYPE_RECTANGLE : string.

Lemma prepareUpdate_undefined instance type oldProps newProps root ctx σ :
  prepareUpdate instance type oldProps newProps root ctx σ = (Normal VUndefined, σ).
Proof. reflexivity. Qed.

Lemma insertBefore_undefined parentInstance child beforeChild σ :
  insertBefore parentInstance child beforeChild σ = (Normal VUndefined, σ).
Proof. reflexivity. Qed.

Lemma clearContainer_undefined container σ :
  clearContainer container σ = (Normal VUndefined, σ).
Proof. reflexivity. Qed.

(** [appendChild] is the callback that does attach: the child ends up last
    in the parent's list. *)
Lemma appendChild_attaches parentInstance child σ :
  appendChild parentInstance child σ =
  (Normal VUndefined,
   {| heap_of := addChild parentInstance child (heap_of σ); console := console σ |}).
Proof. reflexivity. Qed.

(** C9.  [finalizeInitialChildren] returns [false] whatever it is given and
    changes nothing, through the host config as well; the engine, which
    schedules [commitMount] on a truthy answer, never does. *)
Theorem finalizeInitialChildren_false instance type props root ctx σ :
  finalizeInitialChildren instance type props root ctx σ = (Normal (VBool false), σ) ∧
  (fn_call (Config.finalizeInitialChildren (hostConfig TYPE_RECTANGLE))
     (instance, type, props, root, ctx) σ).1 = Normal (VBool false) ∧
  truthy (VBool false) = false.
Proof. repeat split. Qed.

(** C10.  The render-phase append returns without touching the store: the
    parent's child list and the child are as they were. *)
Theorem appendInitialChild_noop parentInstance child σ :
  ∃ σ', appendInitialChild parentInstance child σ = (Normal VUndefined, σ') ∧
        σ' = σ ∧
        children_of (heap_of σ') parentInstance = children_of (heap_of σ) parentInstance ∧
        heap_of σ' !! child = heap_of σ !! child.
Proof. exists σ. repeat split. Qed.

End Callbacks.

(** A fresh rectangle appended in the render phase is still detached. *)
Example appendInitialChild_detached :
  let run : M loc :=
    g ← createInstance RECTANGLE RECTANGLE ∅ stage VNull VNull;
    appendInitialChild stage g;;
    mret g in
  let '(r, σ) := run stage_only in
  r = Normal 1%nat ∧ children_of (heap_of σ) stage = [] ∧
  (heap_of σ !! 1%nat) ≫= parent = None.
Proof. vm_compute. repeat split. Qed.

(** The scene of the runs below: the stage with [S] then [C] attached. *)
Lemma two_children_stage :
  mount_two stage_only = (Normal (S_node, C_node), two_children) ∧
  children_of (heap_of two_children) stage = [S_node; C_node].
Proof. vm_compute. split; reflexivity. Qed.

(** C3.  On the update scenario, old properties [x: 0] and new properties
    [x: 10], [prepareUpdate] returns [undefined], the very value it returns
    when nothing changed, although exactly [x: 10] changed. *)
Theorem prepareUpdate_misses_change :
  prepareUpdate S_node RECTANGLE (props_at 0) (props_at 10) stage VNull two_children
  = (Normal VUndefined, two_children) ∧
  changed_props (props_at 0) (props_at 10) = {[ "x" := VNum 10 ]} ∧
  prepareUpdate S_node RECTANGLE (props_at 0) (props_at 0) stage VNull two_children
  = (Normal VUndefined, two_children) ∧
  changed_props (props_at 0) (props_at 0) = ∅.
Proof. repeat split; vm_compute; reflexivity. Qed.

(** C5.  With [S] then [C] under the stage, [insertBefore stage C S]
    leaves the order [S; C]: [C] occurs once but not immediately before
    [S]. *)
Theorem insertBefore_leaves_order :
  let σ' := (insertBefore stage C_node S_node two_children).2 in
  children_of (heap_of σ') stage = [S_node; C_node] ∧
  occurrences C_node (children_of (heap_of σ') stage) = 1%nat ∧
  ¬ immediately_before C_node S_node (children_of (heap_of σ') stage).
Proof.
  cbn zeta. rewrite insertBefore_undefined. cbn [snd].
  destruct two_children_stage as [_ ->].
  repeat split.
  intros (pre & post & Heq).
  destruct pre as [|a [|b [|c pre]]]; discriminate.
Qed.

(** C6.  With two children under the stage, [clearContainer stage] leaves
    both in place. *)
Theorem clearContainer_leaves_children :
  let σ' := (clearContainer stage two_children).2 in
  children_of (heap_of two_children) stage = [S_node; C_node] ∧
  children_of (heap_of σ') stage = [S_node; C_node] ∧
  children_of (heap_of σ') stage ≠ [].
Proof.
  cbn zeta. rewrite clearContainer_undefined. cbn [snd].
  destruct two_children_stage as [_ ->].
  repeat split. discriminate.
Qed.

(** C7.  [getPublicInstance] returns [undefined] for every instance, never
    the instance it was given. *)
Theorem getPublicInstance_undefined instance σ :
  getPublicInstance instance σ = (Normal VUndefined, σ) ∧
  (getPublicInstance instance σ).1 ≠ Normal (VRef instance).
Proof. split; [reflexivity | discriminate]. Qed.

(** * The logging decorator *)

Lemma logFunctionCall_call {A R} (cb : fn A R) args σ :
  fn_call (logFunctionCall cb) args σ =
  ((fn_call cb args σ).1,
   {| heap_of := heap_of (fn_call cb args σ).2;
      console := console (fn_call cb args σ).2
                 ++ log_line (fn_name cb) args (fn_call cb args σ).1 |}).
Proof.
  run_callback. destruct (fn_call cb args σ) as [[v|e] [h l]]; cbn.
  - reflexivity.
  - by rewrite app_nil_r.
Qed.

Lemma logFunctionCall_equiv {A R} (cb : fn A R) : fn_equiv (logFunctionCall cb) cb.
Proof. intros args σ. by rewrite logFunctionCall_call. Qed.

(** C8.  A call through [logFunctionCall cb] completes as the call to [cb]
    does, with the same value or the same exception, and leaves the same
    heap; the console alone differs, by the one line logged after a normal
    completion.  Field by field, the host config agrees with the callbacks
    it wraps. *)
Theorem logFunctionCall_transparent :
  (∀ (A R : Type) (cb : fn A R) (args : A) (σ : store),
     (fn_call (logFunctionCall cb) args σ).1 = (fn_call cb args σ).1 ∧
     heap_of (fn_call (logFunctionCall cb) args σ).2 = heap_of (fn_call cb args σ).2 ∧
     console (fn_call (logFunctionCall cb) args σ).2 =
       (console (fn_call cb args σ).2
        ++ log_line (fn_name cb) args (fn_call cb args σ).1)%list) ∧
  (∀ TYPE_RECTANGLE, config_equiv (hostConfig TYPE_RECTANGLE) (plain TYPE_RECTANGLE)).
Proof.
  split.
  - intros A R cb args σ. by rewrite logFunctionCall_call.
  - intros T. unfold config_equiv, hostConfig.
    cbn -[logFunctionCall plain].
    repeat split; apply logFunctionCall_equiv.
Qed.

(** The wrapped [createInstance] lets the exception through and logs
    nothing. *)
Example logged_createInstance_throws :
  fn_call (Config.createInstance (hostConfig RECTANGLE))
    ("CIRCLE", ∅, stage, VNull, VNull) stage_only
  = (Throw (Error "Unknown element type: CIRCLE"), stage_only).
Proof. reflexivity. Qed.

(** * The root session manager *)

Section RootSession.

Import ReactPixi.

Context {element engine : Type}.
Variable createContainer : loc → engine → value * engine.
Variable updateContainer :
  element → value → value → value → engine → completion value * engine.

(** The engine hands back root handles that are objects, hence truthy. *)
Hypothesis createContainer_truthy :
  ∀ c e, truthy (createContainer c e).1 = true.

Abbreviation render' := (render createContainer updateContainer).
Abbreviation render_all' := (render_all createContainer updateContainer).

Ltac run_render :=
  cbv [render mbind mret ST_bind ST_ret bind ret read_rootContainer
       write_rootContainer console_info call_createContainer
       call_updateContainer];
  cbn [rootContainer_of reconciler ReactPixi.console fst snd].

(** First call: the guard is open, a root is made and cached, then the
    element is submitted against it. *)
Lemma render_first el c cb w :
  truthy (cached_root w c) = false →
  render' el c cb w =
  let root := (createContainer c (reconciler w)).1 in
  let sub := updateContainer el root VNull cb (createContainer c (reconciler w)).2 in
  (sub.1,
   {| rootContainer_of := <[c := root]> (rootContainer_of w);
      reconciler := sub.2;
      ReactPixi.console :=
        (ReactPixi.console w
         ++ [LogInfo "[ReactPixi] creating container..." [];
             LogInfo "[ReactPixi] created container:" [root]]
         ++ update_lines sub.1)%list |}).
Proof.
  unfold cached_root. intros Hc. run_render. rewrite Hc. cbn [negb].
  destruct (createContainer c (reconciler w)) as [root e] eqn:Hmk.
  cbn [rootContainer_of reconciler ReactPixi.console fst snd].
  rewrite lookup_insert_eq. cbn.
  destruct (updateContainer el root VNull cb e) as [[v|x] e'];
    cbn; by rewrite <- ?app_assoc.
Qed.

(** Later call: the guard is closed, the cached root is submitted to and
    nothing else happens. *)
Lemma render_again el c cb w :
  truthy (cached_root w c) = true →
  render' el c cb w =
  let sub := updateContainer el (cached_root w c) VNull cb (reconciler w) in
  (sub.1,
   {| rootContainer_of := rootContainer_of w;
      reconciler := sub.2;
      ReactPixi.console := (ReactPixi.console w ++ update_lines sub.1)%list |}).
Proof.
  unfold cached_root. intros Hc. run_render. rewrite Hc. cbn.
  destruct (updateContainer el _ VNull cb (reconciler w)) as [[v|x] e'];
    cbn; by rewrite <- ?app_assoc.
Qed.

(** A cached root survives every later call, on this container or on
    another. *)
Lemma render_keeps_root el c' cb w c :
  truthy (cached_root w c) = true →
  cached_root (render' el c' cb w).2 c = cached_root w c.
Proof.
  intros Hc. destruct (truthy (cached_root w c')) eqn:Hc'.
  - by rewrite render_again.
  - rewrite render_first by done. unfold cached_root.
    cbn [snd rootContainer_of].
    rewrite lookup_insert_ne; [done|]. intros ->. congruence.
Qed.

Lemma render_all_keeps_root reqs w c :
  truthy (cached_root w c) = true →
  cached_root (render_all' reqs w) c = cached_root w c.
Proof.
  revert w. induction reqs as [|r reqs IH]; intros w Hc; [done|].
  cbn [render_all foldl].
  fold (render_all' reqs (render' (req_element r) (req_container r) (req_callback r) w).2).
  rewrite IH; rewrite render_keeps_root; done.
Qed.

Lemma render_first_caches el c cb w :
  truthy (cached_root w c) = false →
  cached_root (render' el c cb w).2 c = (createContainer c (reconciler w)).1.
Proof.
  intros Hc. rewrite render_first by done. unfold cached_root.
  cbn [snd rootContainer_of]. by rewrite lookup_insert_eq.
Qed.

Lemma creations_app l1 l2 :
  creations (l1 ++ l2) = (creations l1 + creations l2)%nat.
Proof. unfold creations. by rewrite List.filter_app, length_app. Qed.

Lemma creations_update_lines r : creations (update_lines r) = 0%nat.
Proof. by destruct r. Qed.

(** Calls on one container announce at most one creation, and none once a
    root is cached. *)
Lemma render_all_creations reqs c w :
  Forall (fun r => req_container r = c) reqs →
  (if truthy (cached_root w c)
   then creations (ReactPixi.console (render_all' reqs w))
        = creations (ReactPixi.console w)
   else creations (ReactPixi.console (render_all' reqs w))
        ≤ creations (ReactPixi.console w) + 1)%nat.
Proof.
  intros Hall. revert w. induction Hall as [|r reqs Hr _ IH]; intros w.
  { cbn. destruct (truthy _); lia. }
  cbn [render_all foldl]. rewrite Hr.
  set (w1 := (render' (req_element r) c (req_callback r) w).2).
  specialize (IH w1). fold (render_all' reqs w1).
  destruct (truthy (cached_root w c)) eqn:Hc.
  - assert (truthy (cached_root w1 c) = true) as Hc1.
    { unfold w1. by rewrite render_keeps_root. }
    rewrite Hc1 in IH. rewrite IH. unfold w1. rewrite render_again by done.
    cbn [snd ReactPixi.console].
    rewrite creations_app, creations_update_lines. lia.
  - assert (truthy (cached_root w1 c) = true) as Hc1.
    { unfold w1. rewrite render_first_caches by done. apply createContainer_truthy. }
    rewrite Hc1 in IH. rewrite IH. unfold w1. rewrite render_first by done.
    cbn [snd ReactPixi.console].
    rewrite !creations_app, creations_update_lines. cbn. lia.
Qed.

(** C4.  On a container without a cached root, [render] makes one root,
    caches it on the container and submits the element against it.  After
    any further calls, the container still holds that very root, and a
    call on it makes no root: it submits the element against the cached
    root and returns what the engine returns.  Calls on that container
    announce at most one creation in all. *)
Theorem render_root_singleton el c cb w :
  truthy (cached_root w c) = false →
  let root := (createContainer c (reconciler w)).1 in
  let w1 := (render' el c cb w).2 in
  cached_root w1 c = root ∧
  (render' el c cb w).1 =
    (updateContainer el root VNull cb (createContainer c (reconciler w)).2).1 ∧
  (∀ reqs,
     let w2 := render_all' reqs w1 in
     cached_root w2 c = root ∧
     ∀ el' cb',
       let sub := updateContainer el' root VNull cb' (reconciler w2) in
       render' el' c cb' w2 =
       (sub.1,
        {| rootContainer_of := rootContainer_of w2;
           reconciler := sub.2;
           ReactPixi.console := (ReactPixi.console w2 ++ update_lines sub.1)%list |})) ∧
  (∀ reqs,
     Forall (fun r => req_container r = c) reqs →
     creations (ReactPixi.console (render_all' reqs w))
     ≤ creations (ReactPixi.console w) + 1)%nat.
Proof.
  intros Hc. cbn zeta.
  assert (truthy (cached_root (render' el c cb w).2 c) = true) as Hc1.
  { rewrite render_first_caches by done. apply createContainer_truthy. }
  split; [by apply render_first_caches|].
  split; [by rewrite render_first|].
  split.
  - intros reqs.
    assert (cached_root (render_all' reqs (render' el c cb w).2) c
            = (createContainer c (reconciler w)).1) as Hroot.
    { rewrite render_all_keeps_root by done. by apply render_first_caches. }
    split; [done|]. intros el' cb'.
    rewrite render_again; rewrite Hroot; [done|apply createContainer_truthy].
  - intros reqs Hall. pose proof (render_all_creations reqs c w Hall) as H.
    by rewrite Hc in H.
Qed.

End RootSession.

Lemma render_root_singleton_witness :
  (∀ c e, truthy (toy_createContainer c e).1 = true) ∧
  truthy (ReactPixi.cached_root fresh_world stage) = false ∧
  ReactPixi.cached_root
    (ReactPixi.render toy_createContainer toy_updateContainer
       (RECTANGLE, props_at 0) stage VUndefined fresh_world).2 stage
  = VRef 100%nat.
Proof.
  split; [reflexivity|]. split; [reflexivity|].
  apply (proj1 (render_root_singleton toy_createContainer toy_updateContainer
                  (fun c e => eq_refl) (RECTANGLE, props_at 0) stage VUndefined
                  fresh_world eq_refl)).
Defined.

(** Two renders on the stage: one root made, the same handle cached, one
    creation announced, two submissions. *)
Example render_twice :
  let r := ReactPixi.render toy_createContainer toy_updateContainer in
  let w1 := (r (RECTANGLE, props_at 0) stage VUndefined fresh_world).2 in
  let w2 := (r (RECTANGLE, props_at 10) stage VUndefined w1).2 in
  ReactPixi.cached_root w1 stage = VRef 100%nat ∧
  ReactPixi.cached_root w2 stage = VRef 100%nat ∧
  ReactPixi.reconciler w2 = 1%nat ∧
  creations (ReactPixi.console w2) = 1%nat ∧
  length (ReactPixi.console w2) = 6%nat.
Proof. vm_compute. repeat split. Qed.

(** * More on node creation *)

Section CreateInstanceFrame.

Variable TYPE_RECTANGLE : string.

Lemma children_of_insert_fresh (h : heap) g x y width height p :
  h !! g = None →
  children_of (<[g := rectangle x y width height]> h) p = children_of h p.
Proof.
  intros Hg. unfold children_of. destruct (decide (g = p)) as [->|Hne].
  - by rewrite lookup_insert_eq, Hg.
  - by rewrite lookup_insert_ne.
Qed.

Lemma get_or_defined (o : props) k d : d ≠ VUndefined → get_or o k d ≠ VUndefined.
Proof. intros Hd. unfold get_or. by destruct (get o k). Qed.

(** X1.  Creating a rectangle adds one node to the heap and nothing else:
    every node that was there is untouched, no child list changes (the
    container's included, the new node's is empty), and the console is as
    it was. *)
Theorem createInstance_frame props c ctx ih σ :
  let σ' := (createInstance TYPE_RECTANGLE TYPE_RECTANGLE props c ctx ih σ).2 in
  heap_of σ ⊆ heap_of σ' ∧
  size (heap_of σ') = S (size (heap_of σ)) ∧
  (∀ p, children_of (heap_of σ') p = children_of (heap_of σ) p) ∧
  console σ' = console σ.
Proof.
  cbn zeta. rewrite createInstance_rectangle. cbn [snd heap_of console].
  assert (heap_of σ !! fresh (dom (heap_of σ)) = None) as Hfresh
    by apply not_elem_of_dom, is_fresh.
  repeat split.
  - by apply insert_subseteq.
  - by apply map_size_insert_None.
  - intros p. by apply children_of_insert_fresh.
Qed.

(** X2.  Node creation reads the kind and the four geometry properties and
    nothing else: two calls that agree on those behave alike, whatever the
    other properties, the container, the host context and the internal
    handle are. *)
Theorem createInstance_reads_geometry_only
    type props1 props2 c1 c2 ctx1 ctx2 ih1 ih2 σ :
  get props1 "x" = get props2 "x" →
  get props1 "y" = get props2 "y" →
  get props1 "width" = get props2 "width" →
  get props1 "height" = get props2 "height" →
  createInstance TYPE_RECTANGLE type props1 c1 ctx1 ih1 σ =
  createInstance TYPE_RECTANGLE type props2 c2 ctx2 ih2 σ.
Proof.
  intros Hx Hy Hw Hh. unfold createInstance, get_or.
  by rewrite Hx, Hy, Hw, Hh.
Qed.

(** X3.  Two creations in a row give two different nodes, and the second
    creation leaves the first node as it was drawn. *)
Theorem createInstance_distinct props1 props2 c ctx ih σ :
  ∃ g1 σ1 g2 σ2,
    createInstance TYPE_RECTANGLE TYPE_RECTANGLE props1 c ctx ih σ = (Normal g1, σ1) ∧
    createInstance TYPE_RECTANGLE TYPE_RECTANGLE props2 c ctx ih σ1 = (Normal g2, σ2) ∧
    g1 ≠ g2 ∧
    is_Some (heap_of σ2 !! g2) ∧
    is_Some (heap_of σ1 !! g1) ∧
    heap_of σ2 !! g1 = heap_of σ1 !! g1.
Proof.
  eexists _, _, _, _.
  split; [apply createInstance_rectangle|].
  split; [apply createInstance_rectangle|].
  cbn [heap_of console].
  set (g1 := fresh (dom (heap_of σ))).
  set (h1 := <[g1 := _]> (heap_of σ)).
  assert (h1 !! g1 ≠ None) as Hlive by (unfold h1; by rewrite lookup_insert_eq).
  assert (h1 !! fresh (dom h1) = None) as Hfresh by apply not_elem_of_dom, is_fresh.
  assert (g1 ≠ fresh (dom h1)) as Hne by congruence.
  repeat split.
  - done.
  - rewrite lookup_insert_eq. by eexists.
  - unfold h1. rewrite lookup_insert_eq. by eexists.
  - by rewrite lookup_insert_ne.
Qed.

(** X4.  The rectangle is never drawn with an [undefined] coordinate or
    dimension, whatever the property mapping holds. *)
Theorem createInstance_draws_defined props c ctx ih σ :
  ∃ g x y width height σ',
    createInstance TYPE_RECTANGLE TYPE_RECTANGLE props c ctx ih σ = (Normal g, σ') ∧
    (commands <$> heap_of σ' !! g)
      = Some [BeginFill 0xffffff; DrawRect x y width height; EndFill] ∧
    x ≠ VUndefined ∧ y ≠ VUndefined ∧ width ≠ VUndefined ∧ height ≠ VUndefined.
Proof.
  eexists _, _, _, _, _, _. split; [apply createInstance_rectangle|].
  cbn [heap_of]. rewrite lookup_insert_eq.
  repeat split; by apply get_or_defined.
Qed.

(** X5.  Through the host config, a successful creation leaves exactly one
    line on the console, naming [createInstance] with its arguments and the
    new node; a creation of an unknown kind throws through the wrapper and
    leaves the whole store, console included, as it was. *)
Theorem hostConfig_createInstance_logged type props c ctx ih σ :
  (type ≠ TYPE_RECTANGLE →
   fn_call (Config.createInstance (hostConfig TYPE_RECTANGLE))
     (type, props, c, ctx, ih) σ
   = (Throw (Error ("Unknown element type: " +:+ type)), σ)) ∧
  (type = TYPE_RECTANGLE →
   ∃ g σ',
     createInstance TYPE_RECTANGLE type props c ctx ih σ = (Normal g, σ') ∧
     fn_call (Config.createInstance (hostConfig TYPE_RECTANGLE))
       (type, props, c, ctx, ih) σ
     = (Normal g,
        {| heap_of := heap_of σ';
           console :=
             (console σ
              ++ [LogFn "createInstance" (type, props, c, ctx, ih) g])%list |})).
Proof.
  split.
  - intros Hne. cbn [hostConfig Config.createInstance plain].
    run_callback. by rewrite createInstance_unknown.
  - intros ->. eexists _, _. split; [apply createInstance_rectangle|].
    cbn [hostConfig Config.createInstance plain].
    run_callback. by rewrite createInstance_rectangle.
Qed.

End CreateInstanceFrame.

Lemma createInstance_reads_geometry_only_witness :
  let props1 : props := {[ "x" := VNum 5; "fill" := VStr "red" ]} in
  let props2 : props := {[ "x" := VNum 5 ]} in
  createInstance RECTANGLE RECTANGLE props1 stage VNull VNull stage_only =
  createInstance RECTANGLE RECTANGLE props2 backstage (VNum 1) (VRef 9%nat) stage_only.
Proof.
  cbn zeta.
  apply (createInstance_reads_geometry_only RECTANGLE RECTANGLE
           {[ "x" := VNum 5; "fill" := VStr "red" ]} {[ "x" := VNum 5 ]}
           stage backstage VNull (VNum 1) VNull (VRef 9%nat) stage_only);
    reflexivity.
Defined.

Lemma hostConfig_createInstance_logged_witness :
  ("CIRCLE" ≠ RECTANGLE ∧
   fn_call (Config.createInstance (hostConfig RECTANGLE))
     ("CIRCLE", ∅, stage, VNull, VNull) stage_only
   = (Throw (Error "Unknown element type: CIRCLE"), stage_only)) ∧
  (∃ g σ',
     createInstance RECTANGLE RECTANGLE ∅ stage VNull VNull stage_only = (Normal g, σ') ∧
     fn_call (Config.createInstance (hostConfig RECTANGLE))
       (RECTANGLE, ∅, stage, VNull, VNull) stage_only
     = (Normal g,
        {| heap_of := heap_of σ';
           console :=
             [LogFn "createInstance" (RECTANGLE, (∅ : props), stage, VNull, VNull) g] |})).
Proof.
  split.
  - split; [discriminate|].
    apply (proj1 (hostConfig_createInstance_logged
                    RECTANGLE "CIRCLE" ∅ stage VNull VNull stage_only)).
    discriminate.
  - apply (proj2 (hostConfig_createInstance_logged
                    RECTANGLE RECTANGLE ∅ stage VNull VNull stage_only)).
    reflexivity.
Defined.

(** * Host context *)

Lemma descend_keeps ctx path rootContainer σ :
  descend ctx path rootContainer σ = (Normal ctx, σ).
Proof.
  revert ctx. induction path as [|type rest IH]; intros ctx; [done|].
  cbn [descend]. unfold getChildHostContext. run_callback. apply IH.
Qed.

(** X6.  Host context never changes on the way down: a context handed to
    the children of any chain of kinds comes out as it went in, so the
    context of every node of a tree is the root's, [null], and computing it
    leaves the store alone. *)
Theorem host_context_is_null rootContainer path σ :
  (∀ ctx, descend ctx path rootContainer σ = (Normal ctx, σ)) ∧
  host_context_at rootContainer path σ = (Normal VNull, σ).
Proof.
  split.
  - intros ctx. apply descend_keeps.
  - unfold host_context_at, getRootHostContext. run_callback. apply descend_keeps.
Qed.

(** * Attaching children *)

Section Attach.

Variable TYPE_RECTANGLE : string.

Lemma occurrences_cons_eq c cs : occurrences c (c :: cs) = S (occurrences c cs).
Proof. unfold occurrences. by rewrite filter_cons_True. Qed.

Lemma occurrences_cons_ne c d cs : d ≠ c → occurrences c (d :: cs) = occurrences c cs.
Proof. intros Hne. unfold occurrences. by rewrite filter_cons_False. Qed.

Lemma occurrences_snoc_eq c cs : occurrences c (cs ++ [c]) = S (occurrences c cs).
Proof.
  unfold occurrences. rewrite filter_app, length_app, filter_cons_True by done.
  cbn. lia.
Qed.

Lemma occurrences_remove_first c cs :
  c ∈ cs → S (occurrences c (remove_first c cs)) = occurrences c cs.
Proof.
  induction cs as [|d ds IH]; intros Hin; [by apply elem_of_nil in Hin|].
  cbn [remove_first]. destruct (decide (d = c)) as [->|Hne].
  - by rewrite occurrences_cons_eq.
  - rewrite !occurrences_cons_ne by done. apply IH.
    apply elem_of_cons in Hin as [->|Hin]; done.
Qed.

(** X7.  Mounting a rectangle under a live container: the new node goes to
    the end of the container's child list, behind the children already
    there, with the container as its parent; no other node changes and the
    callbacks themselves write nothing on the console. *)
Theorem mount_attaches_last props container n σ :
  heap_of σ !! container = Some n →
  ∃ g σ',
    mount TYPE_RECTANGLE props container σ = (Normal g, σ') ∧
    heap_of σ !! g = None ∧
    children_of (heap_of σ') container = (children n ++ [g])%list ∧
    (heap_of σ' !! g) ≫= parent = Some container ∧
    children_of (heap_of σ') g = [] ∧
    (∀ l, l ≠ container → l ≠ g → heap_of σ' !! l = heap_of σ !! l) ∧
    console σ' = console σ.
Proof.
  intros Hc. unfold mount, appendChildToContainer, appendChild.
  run_callback. rewrite createInstance_rectangle. cbn [heap_of console].
  set (g := fresh (dom (heap_of σ))).
  assert (heap_of σ !! g = None) as Hfresh by apply not_elem_of_dom, is_fresh.
  assert (container ≠ g) as Hne by congruence.
  eexists _, _. split; [reflexivity|]. cbn [heap_of console].
  unfold addChild. rewrite lookup_insert_eq. cbn [mbind option_bind parent rectangle].
  rewrite alter_insert_eq.
  split; [done|]. unfold children_of.
  rewrite !lookup_alter_eq, !lookup_insert_ne, Hc by done.
  rewrite lookup_alter_ne, lookup_insert_eq by done.
  repeat split.
  intros l Hl Hg. by rewrite lookup_alter_ne, lookup_insert_ne.
Qed.

(** X8.  Appending a child that already sits under the same parent moves
    it: it leaves its place in the child list and comes back at the end,
    still a child of that parent and as many times in the list as before. *)
Theorem appendChild_moves_to_end p c n m σ :
  heap_of σ !! p = Some n →
  heap_of σ !! c = Some m →
  parent m = Some p →
  p ≠ c →
  let σ' := (appendChild p c σ).2 in
  children_of (heap_of σ') p = (remove_first c (children n) ++ [c])%list ∧
  (heap_of σ' !! c) ≫= parent = Some p ∧
  (c ∈ children n →
   occurrences c (children_of (heap_of σ') p) = occurrences c (children n)).
Proof.
  intros Hp Hc Hparent Hne. cbn zeta.
  unfold appendChild. run_callback. unfold addChild.
  rewrite Hc. cbn [mbind option_bind]. rewrite Hparent.
  assert (children_of
            (alter (λ x, set_children (children x ++ [c]) x) p
               (alter (set_parent (Some p)) c
                  (alter (λ x, set_children (remove_first c (children x)) x) p
                     (heap_of σ)))) p
          = (remove_first c (children n) ++ [c])%list) as Hchildren.
  { unfold children_of.
    rewrite lookup_alter_eq, lookup_alter_ne, lookup_alter_eq, Hp by done.
    done. }
  split; [done|]. split.
  - rewrite lookup_alter_ne, lookup_alter_eq, lookup_alter_ne, Hc by done. done.
  - intros Hin. rewrite Hchildren, occurrences_snoc_eq.
    by apply occurrences_remove_first.
Qed.

End Attach.

Lemma mount_attaches_last_witness :
  heap_of two_children !! stage
  = Some {| commands := []; children := [S_node; C_node]; parent := None |} ∧
  ∃ g σ',
    mount RECTANGLE ∅ stage two_children = (Normal g, σ') ∧
    heap_of two_children !! g = None ∧
    children_of (heap_of σ') stage = [S_node; C_node; g] ∧
    (heap_of σ' !! g) ≫= parent = Some stage ∧
    children_of (heap_of σ') g = [] ∧
    (∀ l, l ≠ stage → l ≠ g → heap_of σ' !! l = heap_of two_children !! l) ∧
    console σ' = console two_children.
Proof.
  split; [vm_compute; reflexivity|].
  apply (mount_attaches_last RECTANGLE ∅ stage
           {| commands := []; children := [S_node; C_node]; parent := None |}
           two_children).
  vm_compute; reflexivity.
Defined.

Lemma appendChild_moves_to_end_witness :
  let σ' := (appendChild stage S_node two_children).2 in
  children_of (heap_of σ') stage = [C_node; S_node] ∧
  (heap_of σ' !! S_node) ≫= parent = Some stage ∧
  (S_node ∈ [S_node; C_node] →
   occurrences S_node (children_of (heap_of σ') stage) = 1%nat).
Proof.
  apply (appendChild_moves_to_end stage S_node
           {| commands := []; children := [S_node; C_node]; parent := None |}
           (set_parent (Some stage) (rectangle (VNum 0) (VNum 0) (VNum 100) (VNum 100)))
           two_children).
  - vm_compute; reflexivity.
  - vm_compute; reflexivity.
  - reflexivity.
  - discriminate.
Defined.

(** * More on the root session manager *)

Section RootSessionRuns.

Import ReactPixi.

Context {element engine : Type}.
Variable createContainer : loc → engine → value * engine.
Variable updateContainer :
  element → value → value → value → engine → completion value * engine.

Abbreviation run := (render createContainer updateContainer).
Abbreviation run_all := (render_all createContainer updateContainer).

Lemma run_all_cons r reqs w :
  run_all (r :: reqs) w
  = run_all reqs (run (req_element r) (req_container r) (req_callback r) w).2.
Proof. reflexivity. Qed.

Lemma cached_root_first el c cb w x :
  truthy (cached_root w c) = false →
  cached_root (run el c cb w).2 x
  = if decide (c = x) then (createContainer c (reconciler w)).1 else cached_root w x.
Proof.
  intros Hc. rewrite render_first by done. unfold cached_root.
  cbn [snd rootContainer_of]. rewrite lookup_insert. by destruct (decide (c = x)).
Qed.

Lemma cached_root_again el c cb w x :
  truthy (cached_root w c) = true →
  cached_root (run el c cb w).2 x = cached_root w x.
Proof. intros Hc. by rewrite render_again. Qed.

Lemma run_other_container el c' cb w c :
  c' ≠ c → cached_root (run el c' cb w).2 c = cached_root w c.
Proof.
  intros Hne. destruct (truthy (cached_root w c')) eqn:Hc'.
  - by apply cached_root_again.
  - rewrite cached_root_first by done. by rewrite decide_False.
Qed.

(** X9.  Rendering into other containers never touches the handle cached
    on this one, whether it holds one yet or not. *)
Theorem render_all_other_containers reqs w c :
  Forall (fun r => req_container r ≠ c) reqs →
  cached_root (run_all reqs w) c = cached_root w c.
Proof.
  intros Hall. revert w. induction Hall as [|r reqs Hr _ IH]; intros w; [done|].
  rewrite run_all_cons, IH. by apply run_other_container.
Qed.

(** X10.  Whether the root was just made or was cached before, [render]
    ends as the submission does: it returns what [updateContainer] returns
    and throws what it throws, having passed it the element, the handle the
    container holds after the call, [null] as parent component and the
    callback unchanged; the engine is left in the state the submission
    reached. *)
Theorem render_completes_as_submission el c cb w :
  let w' := (run el c cb w).2 in
  let e :=
    if truthy (cached_root w c) then reconciler w
    else (createContainer c (reconciler w)).2 in
  (run el c cb w).1 = (updateContainer el (cached_root w' c) VNull cb e).1 ∧
  reconciler w' = (updateContainer el (cached_root w' c) VNull cb e).2.
Proof.
  cbn zeta. destruct (truthy (cached_root w c)) eqn:Hc.
  - rewrite cached_root_again by done. by rewrite render_again.
  - rewrite cached_root_first, decide_True by done. by rewrite render_first.
Qed.

Lemma submissions_app l1 l2 :
  submissions (l1 ++ l2) = (submissions l1 + submissions l2)%nat.
Proof. unfold submissions. by rewrite List.filter_app, length_app. Qed.

Lemma submissions_update_lines r : submissions (update_lines r) = 1%nat.
Proof. by destruct r. Qed.

Lemma run_submits_once el c cb w :
  submissions (ReactPixi.console (run el c cb w).2)
  = S (submissions (ReactPixi.console w)).
Proof.
  destruct (truthy (cached_root w c)) eqn:Hc.
  - rewrite render_again by done. cbn [snd ReactPixi.console].
    rewrite submissions_app, submissions_update_lines. lia.
  - rewrite render_first by done. cbn [snd ReactPixi.console].
    rewrite !submissions_app, submissions_update_lines. cbn. lia.
Qed.

(** X11.  Every call submits: after any run of calls, on whatever
    containers and whether or not submissions threw, the console announces
    one submission per call. *)
Theorem render_all_submits_each reqs w :
  submissions (ReactPixi.console (run_all reqs w))
  = (submissions (ReactPixi.console w) + length reqs)%nat.
Proof.
  revert w. induction reqs as [|r reqs IH]; intros w.
  - cbn. lia.
  - rewrite run_all_cons, IH, run_submits_once. cbn [length]. lia.
Qed.

Lemma new_roots_spec (w : world (engine := engine)) cs x :
  x ∈ new_roots w cs ↔ x ∈ cs ∧ truthy (cached_root w x) = false.
Proof. unfold new_roots. by rewrite elem_of_list_to_set, list_elem_of_filter, (comm and). Qed.

Lemma run_creates el c cb w :
  creations (ReactPixi.console (run el c cb w).2)
  = (creations (ReactPixi.console w)
     + if truthy (cached_root w c) then 0 else 1)%nat.
Proof.
  destruct (truthy (cached_root w c)) eqn:Hc.
  - rewrite render_again by done. cbn [snd ReactPixi.console].
    rewrite creations_app, creations_update_lines. lia.
  - rewrite render_first by done. cbn [snd ReactPixi.console].
    rewrite !creations_app, creations_update_lines. cbn. lia.
Qed.

(** X12.  With an engine whose root handles are truthy, a run of calls on
    any mix of containers makes exactly one root per distinct container
    that held none: the creations announced grow by the number of such
    containers, however often each is rendered into. *)
Theorem render_all_creates_once_each reqs w :
  (∀ c e, truthy (createContainer c e).1 = true) →
  creations (ReactPixi.console (run_all reqs w))
  = (creations (ReactPixi.console w)
     + size (new_roots w (req_container <$> reqs)))%nat.
Proof.
  intros Htruthy. revert w. induction reqs as [|r reqs IH]; intros w.
  { cbn. unfold new_roots. cbn. rewrite size_empty. lia. }
  rewrite run_all_cons, IH, run_creates. rewrite fmap_cons.
  set (c := req_container r). set (cs := req_container <$> reqs).
  set (w1 := (run (req_element r) c (req_callback r) w).2).
  destruct (truthy (cached_root w c)) eqn:Hc.
  - assert (new_roots w1 cs = new_roots w (c :: cs)) as ->; [|lia].
    apply set_eq. intros x. rewrite !new_roots_spec. unfold w1.
    rewrite cached_root_again by done. rewrite elem_of_cons.
    split; [tauto|]. intros [[->|Hin] Hx]; [congruence|done].
  - assert (new_roots w (c :: cs) = {[c]} ∪ new_roots w1 cs) as ->.
    { apply set_eq. intros x.
      rewrite elem_of_union, elem_of_singleton, !new_roots_spec. unfold w1.
      rewrite cached_root_first by done. rewrite elem_of_cons.
      destruct (decide (c = x)) as [->|Hne].
      - rewrite Htruthy. split; [tauto|]. intros [?|[_ ?]]; [tauto|done].
      - split; [intros [[->|?] ?]; [done|tauto]|].
        intros [->|[? ?]]; [done|tauto]. }
    rewrite size_union, size_singleton; [lia|].
    apply disjoint_singleton_l. rewrite new_roots_spec. unfold w1.
    rewrite cached_root_first, decide_True by done.
    rewrite Htruthy. intros [_ ?]. done.
Qed.

(** X13.  The guard tests the handle for truthiness, not for presence: a
    falsy handle from the engine is stored but does not close the guard,
    and the next call on the container makes a root again. *)
Theorem render_falsy_root_remade el c cb w :
  truthy (cached_root w c) = false →
  truthy (createContainer c (reconciler w)).1 = false →
  let w1 := (run el c cb w).2 in
  cached_root w1 c = (createContainer c (reconciler w)).1 ∧
  ∀ el' cb',
    creations (ReactPixi.console (run el' c cb' w1).2)
    = S (S (creations (ReactPixi.console w))).
Proof.
  intros Hc Hfalsy. cbn zeta.
  assert (cached_root (run el c cb w).2 c = (createContainer c (reconciler w)).1)
    as Hroot by (rewrite cached_root_first, decide_True; done).
  split; [done|]. intros el' cb'.
  rewrite !run_creates, Hroot, Hfalsy, Hc. lia.
Qed.

End RootSessionRuns.

Lemma render_all_other_containers_witness :
  let reqs := [ReactPixi.Request (RECTANGLE, props_at 0) backstage VUndefined;
               ReactPixi.Request (RECTANGLE, props_at 10) backstage VUndefined] in
  ReactPixi.cached_root
    (ReactPixi.render_all toy_createContainer toy_updateContainer reqs fresh_world)
    stage
  = VUndefined.
Proof.
  apply (render_all_other_containers toy_createContainer toy_updateContainer
           [ReactPixi.Request (RECTANGLE, props_at 0) backstage VUndefined;
            ReactPixi.Request (RECTANGLE, props_at 10) backstage VUndefined]
           fresh_world stage).
  repeat constructor; discriminate.
Defined.

Lemma render_all_creates_once_each_witness :
  let reqs := [ReactPixi.Request (RECTANGLE, props_at 0) stage VUndefined;
               ReactPixi.Request ("CIRCLE", props_at 0) backstage VUndefined;
               ReactPixi.Request (RECTANGLE, props_at 10) stage VUndefined] in
  size (new_roots fresh_world (ReactPixi.req_container <$> reqs)) = 2%nat ∧
  creations (ReactPixi.console
    (ReactPixi.render_all toy_createContainer strict_updateContainer reqs fresh_world))
  = (creations (ReactPixi.console fresh_world)
     + size (new_roots fresh_world (ReactPixi.req_container <$> reqs)))%nat.
Proof.
  cbn zeta. split; [vm_compute; reflexivity|].
  apply (render_all_creates_once_each toy_createContainer strict_updateContainer).
  reflexivity.
Defined.

Lemma render_falsy_root_remade_witness :
  let r := ReactPixi.render null_createContainer toy_updateContainer in
  let w1 := (r (RECTANGLE, props_at 0) stage VUndefined fresh_world).2 in
  ReactPixi.cached_root w1 stage = VNull ∧
  ∀ el' cb', creations (ReactPixi.console (r el' stage cb' w1).2) = 2%nat.
Proof.
  apply (render_falsy_root_remade null_createContainer toy_updateContainer
           (RECTANGLE, props_at 0) stage VUndefined fresh_world);
    reflexivity.
Defined.

(** A submission that throws: [render] throws the same error, the root made
    for the call stays cached, and the closing line is not logged. *)
Example render_throwing_submission :
  let r := ReactPixi.render toy_createContainer strict_updateContainer in
  let '(result, w1) := r ("CIRCLE", props_at 0) stage VUndefined fresh_world in
  result = Throw (Error "Unknown element type: CIRCLE") ∧
  ReactPixi.cached_root w1 stage = VRef 100%nat ∧
  length (ReactPixi.console w1) = 3%nat ∧
  submissions (ReactPixi.console w1) = 1%nat.
Proof. vm_compute. repeat split. Qed.

(** * The scene graph stays consistent *)

Section SceneInvariant.

Variable TYPE_RECTANGLE : string.

Lemma elem_of_remove_first c y cs :
  NoDup cs → y ∈ remove_first c cs ↔ y ∈ cs ∧ y ≠ c.
Proof.
  induction 1 as [|d ds Hd Hnd IH]; cbn [remove_first].
  - rewrite elem_of_nil. tauto.
  - destruct (decide (d = c)) as [->|Hne].
    + rewrite elem_of_cons. split.
      * intros Hy. split; [tauto|]. by intros ->.
      * intros [[->|?] ?]; done.
    + rewrite !elem_of_cons, IH. split.
      * intros [->|[? ?]]; tauto.
      * intros [[->|?] ?]; tauto.
Qed.

Lemma NoDup_remove_first c cs : NoDup cs → NoDup (remove_first c cs).
Proof.
  intros Hnd. induction Hnd as [|d ds Hd Hnd IH]; cbn [remove_first].
  - constructor.
  - destruct (decide (d = c)); [done|].
    constructor; [|done]. rewrite elem_of_remove_first by done. tauto.
Qed.

Lemma remove_first_absent c cs : c ∉ cs → remove_first c cs = cs.
Proof.
  induction cs as [|d ds IH]; intros Hc; [done|]. cbn [remove_first].
  apply not_elem_of_cons in Hc as [? ?].
  rewrite decide_False by done. by rewrite IH.
Qed.

(** Where [addChild] leaves the child lists and the parent pointers. *)
Lemma children_of_alter_children (F : list loc → list loc) k (h : heap) x :
  (h !! k = None → F [] = []) →
  children_of (alter (fun n => set_children (F (children n)) n) k h) x
  = if decide (k = x) then F (children_of h x) else children_of h x.
Proof.
  intros HF. unfold children_of. destruct (decide (k = x)) as [->|Hne].
  - rewrite lookup_alter_eq. destruct (h !! x) eqn:Hx; cbn; [done|].
    symmetry. by apply HF.
  - by rewrite lookup_alter_ne.
Qed.

Lemma children_of_alter_parent v k (h : heap) x :
  children_of (alter (set_parent v) k h) x = children_of h x.
Proof.
  unfold children_of. destruct (decide (k = x)) as [->|Hne].
  - rewrite lookup_alter_eq. by destruct (h !! x).
  - by rewrite lookup_alter_ne.
Qed.

Lemma parent_of_alter_children (F : list loc → list loc) k (h : heap) x :
  parent_of (alter (fun n => set_children (F (children n)) n) k h) x = parent_of h x.
Proof.
  unfold parent_of. destruct (decide (k = x)) as [->|Hne].
  - rewrite lookup_alter_eq. by destruct (h !! x).
  - by rewrite lookup_alter_ne.
Qed.

Lemma parent_of_alter_parent v k (h : heap) x :
  is_Some (h !! k) →
  parent_of (alter (set_parent v) k h) x = if decide (k = x) then v else parent_of h x.
Proof.
  intros [n Hk]. unfold parent_of. destruct (decide (k = x)) as [->|Hne].
  - by rewrite lookup_alter_eq, Hk.
  - by rewrite lookup_alter_ne.
Qed.

Lemma addChild_children p c (h : heap) x :
  scene_ok h → is_Some (h !! p) →
  children_of (addChild p c h) x
  = (remove_first c (children_of h x) ++ if decide (p = x) then [c] else [])%list.
Proof.
  intros [Hlink Hnd] [n Hp]. unfold addChild. fold (parent_of h c).
  assert (children_of
            (match parent_of h c with
             | Some q => alter (fun n => set_children (remove_first c (children n)) n) q h
             | None => h
             end) x = remove_first c (children_of h x)) as Hrm.
  { destruct (parent_of h c) as [q|] eqn:Hq.
    - rewrite (children_of_alter_children (remove_first c)) by done.
      destruct (decide (q = x)) as [->|Hne]; [done|].
      rewrite remove_first_absent; [done|]. rewrite <- Hlink. congruence.
    - rewrite remove_first_absent; [done|]. rewrite <- Hlink. congruence. }
  rewrite (children_of_alter_children (fun cs => cs ++ [c])%list).
  - rewrite children_of_alter_parent, Hrm.
    destruct (decide (p = x)); [done|]. by rewrite app_nil_r.
  - intros Hnone. exfalso.
    apply lookup_alter_None in Hnone.
    destruct (parent_of h c); [apply lookup_alter_None in Hnone|]; congruence.
Qed.

Lemma addChild_parent p c (h : heap) x :
  is_Some (h !! c) →
  parent_of (addChild p c h) x = if decide (c = x) then Some p else parent_of h x.
Proof.
  intros Hc. unfold addChild. fold (parent_of h c).
  rewrite (parent_of_alter_children (fun cs => cs ++ [c])%list).
  rewrite parent_of_alter_parent.
  - destruct (decide (c = x)); [done|].
    destruct (parent_of h c); [|done].
    apply (parent_of_alter_children (remove_first c)).
  - destruct (parent_of h c); [by apply lookup_alter_is_Some|done].
Qed.

(** X14.  Attaching keeps the scene graph consistent: after [appendChild]
    of a live child to a live parent, every node is still in the child list
    of exactly the node its parent pointer names, and no child list repeats
    a node, wherever the child was attached before. *)
Theorem appendChild_keeps_scene_ok p c σ :
  scene_ok (heap_of σ) →
  is_Some (heap_of σ !! p) →
  is_Some (heap_of σ !! c) →
  scene_ok (heap_of (appendChild p c σ).2).
Proof.
  intros Hok Hp Hc. rewrite appendChild_attaches. cbn [snd heap_of].
  pose proof Hok as [Hlink Hnd]. split.
  - intros x y. rewrite addChild_parent, addChild_children by done.
    rewrite elem_of_app, elem_of_remove_first by done.
    destruct (decide (c = y)) as [->|Hcy].
    + split.
      * intros [= ->]. right. rewrite decide_True by done. by apply list_elem_of_singleton.
      * intros [[_ ?]|Hin]; [done|].
        destruct (decide (p = x)) as [->|]; [done|]. by apply elem_of_nil in Hin.
    + rewrite Hlink. split; [intros ?; left; split; [done|congruence]|].
      intros [[? _]|Hin]; [done|].
      destruct (decide (p = x)); [|by apply elem_of_nil in Hin].
      apply list_elem_of_singleton in Hin. congruence.
  - intros x. rewrite addChild_children by done.
    apply NoDup_app. split; [by apply NoDup_remove_first|]. split.
    + intros y Hy Hin. apply elem_of_remove_first in Hy as [_ Hne]; [|done].
      destruct (decide (p = x)); [|by apply elem_of_nil in Hin].
      by apply list_elem_of_singleton in Hin.
    + destruct (decide (p = x)); [apply NoDup_singleton|constructor].
Qed.

(** X15.  Creating a node keeps the scene graph consistent: the new
    rectangle comes detached and childless, and no child list names it. *)
Theorem createInstance_keeps_scene_ok props c ctx ih σ :
  scene_ok (heap_of σ) →
  scene_ok (heap_of (createInstance TYPE_RECTANGLE TYPE_RECTANGLE props c ctx ih σ).2).
Proof.
  intros [Hlink Hnd]. rewrite createInstance_rectangle. cbn [snd heap_of].
  set (g := fresh (dom (heap_of σ))).
  assert (heap_of σ !! g = None) as Hfresh by apply not_elem_of_dom, is_fresh.
  split.
  - intros x y. rewrite children_of_insert_fresh by done.
    rewrite <- Hlink. unfold parent_of.
    destruct (decide (g = y)) as [<-|Hne].
    + rewrite lookup_insert_eq, Hfresh. done.
    + by rewrite lookup_insert_ne.
  - intros x. by rewrite children_of_insert_fresh.
Qed.

End SceneInvariant.

(** A heap of detached, childless nodes is consistent. *)
Lemma scene_ok_detached (h : heap) :
  (∀ x n, h !! x = Some n → children n = [] ∧ parent n = None) →
  scene_ok h.
Proof.
  intros Hall. split.
  - intros x y. unfold parent_of, children_of. split.
    + destruct (h !! y) as [n|] eqn:Hy; [|done].
      destruct (Hall y n Hy) as [_ Hpar]. cbn. by rewrite Hpar.
    + destruct (h !! x) as [n|] eqn:Hx; cbn; [|by rewrite elem_of_nil].
      destruct (Hall x n Hx) as [-> _]. by rewrite elem_of_nil.
  - intros x. unfold children_of.
    destruct (h !! x) as [n|] eqn:Hx; cbn; [|constructor].
    destruct (Hall x n Hx) as [-> _]. constructor.
Qed.

Lemma scene_ok_stage_only : scene_ok (heap_of stage_only).
Proof.
  apply scene_ok_detached. intros x n. cbn [heap_of stage_only].
  intros [_ <-]%lookup_singleton_Some. done.
Qed.

Lemma scene_ok_one_pending : scene_ok (heap_of one_pending).
Proof.
  apply scene_ok_detached. intros x n. unfold one_pending.
  rewrite createInstance_rectangle. cbn [snd heap_of stage_only].
  intros [[_ <-]|[_ [_ <-]%lookup_singleton_Some]]%lookup_insert_Some; done.
Qed.

Lemma createInstance_keeps_scene_ok_witness :
  scene_ok (heap_of
    (createInstance RECTANGLE RECTANGLE (props_at 10) stage VNull VNull stage_only).2).
Proof.
  apply (createInstance_keeps_scene_ok RECTANGLE (props_at 10) stage VNull VNull
           stage_only scene_ok_stage_only).
Defined.

Lemma appendChild_keeps_scene_ok_witness :
  scene_ok (heap_of (appendChild stage S_node one_pending).2).
Proof.
  apply (appendChild_keeps_scene_ok stage S_node one_pending scene_ok_one_pending).
  - vm_compute. by eexists.
  - vm_compute. by eexists.
Defined.
